(** * The x402 Solana example server ([examples/solana/server.js])

    A shallow embedding of the [GET /premium] handler of the Express
    server, together with the JavaScript and web3.js notions it relies on:

    - [JS]      JavaScript values, thrown values, property reads and the
                arithmetic of [Number] on integers;
    - [Web3]    the data the Solana RPC hands back, the library functions
                the handler calls, and the awaited calls of [Connection] as
                a tree of requests and continuations;
    - [Express] requests, responses and the statements of an async handler
                (normal completion, [return], [throw], [try]/[catch]);
    - [Server]  the handler itself, written in the order of the source;
    - [Node]    an interpreter running handlers against an RPC node, which
                records every exchange with it;
    - [Devnet]  one small concrete library and node, used to run the
                handler on explicit requests;
    - [Spec]    the notions of the protocol description the code is
                compared with.

    [console.log] calls are left out; the property reads inside their
    arguments are kept because a read can throw.  Requests are served one
    after the other: interleavings of concurrent handlers at their
    [await]s are not represented. *)

From Stdlib Require Import ZArith QArith_base String Ascii List Bool Lia.
From Stdlib Require Import DecimalString.
From Stdlib Require Init.Byte.
From ExtLib Require Import Structures.Monad Structures.MonadExc.
Import ListNotations.
Import MonadNotation.

Set Warnings "-register-all".

Local Open Scope string_scope.
Local Open Scope Z_scope.
Local Open Scope monad_scope.

(* ===================================================================== *)
(** ** JavaScript                                                          *)
(* ===================================================================== *)

Module JS.

(** A [Buffer] is a sequence of octets. *)
Definition Buffer := list Byte.byte.

(** Values as [JSON.parse] builds them and as [res.json] takes them, plus
    [undefined], which a property read can yield.  A number carries the
    rational it denotes; an object keeps its keys in insertion order. *)
Inductive Value : Type :=
| Undefined
| Null
| Bool (b : bool)
| Num (q : Q)
| Str (s : string)
| Arr (items : list Value)
| Obj (fields : list (string * Value)).

Definition int (z : Z) : Value := Num (inject_Z z).

(** What a [throw] carries: an [Error] instance with its [message], or any
    other value (the source only asks [e instanceof Error]). *)
Inductive Thrown : Type :=
| Error (message : string)
| NotAnError (v : Value).

(** Outcome of a library call that may throw. *)
Inductive result (A : Type) : Type :=
| Ok (a : A)
| Throw (e : Thrown).
Arguments Ok {A} a.
Arguments Throw {A} e.

(** ToBoolean on the values above. *)
Definition truthy (v : Value) : bool :=
  match v with
  | Undefined | Null => false
  | Bool b => b
  | Num q => negb (Qnum q =? 0)
  | Str s => negb (String.eqb s EmptyString)
  | Arr _ | Obj _ => true
  end.

(** The last binding of a key wins, as in [JSON.parse] and in object
    literals. *)
Fixpoint lookup (key : string) (fields : list (string * Value)) : option Value :=
  match fields with
  | [] => None
  | (k, v) :: rest =>
      match lookup key rest with
      | Some w => Some w
      | None => if String.eqb k key then Some v else None
      end
  end.

(** [v.key] for the fixed, non-numeric keys the handler reads (none of them
    is [length] or an inherited method name): reading from [null] or
    [undefined] throws a TypeError, reading from a primitive or an array
    gives [undefined]. *)
Definition get (v : Value) (key : string) : result Value :=
  match v with
  | Undefined =>
      Throw (Error ("Cannot read properties of undefined (reading '" ++ key ++ "')"))
  | Null =>
      Throw (Error ("Cannot read properties of null (reading '" ++ key ++ "')"))
  | Obj fields =>
      Ok (match lookup key fields with Some w => w | None => Undefined end)
  | _ => Ok Undefined
  end.

Definition keys (v : Value) : list string :=
  match v with
  | Obj fields => map fst fields
  | _ => []
  end.

(** *** Number

    A JavaScript number is an IEEE-754 double.  Every number the handler
    computes with is an integer, so a double is represented by the integer
    it equals, and the only thing to model is rounding: [to_double z] is
    the double nearest to [z], ties going to the even significand (53
    bits).  Magnitudes stay far below 2^1024, so there is no overflow. *)
Definition round_magnitude (m : Z) : Z :=
  if m <? 2 ^ 53 then m
  else
    let e := Z.log2 m - 52 in
    let q := Z.shiftr m e in
    let r := m - Z.shiftl q e in
    let half := Z.shiftl 1 (e - 1) in
    let q' :=
      if r <? half then q
      else if half <? r then q + 1
      else if Z.even q then q else q + 1 in
    Z.shiftl q' e.

Definition to_double (z : Z) : Z := Z.sgn z * round_magnitude (Z.abs z).

(** [Number(s)] where [s] is the decimal rendering of the natural number
    [n] (the RPC node renders token amounts, which are u64, this way). *)
Definition Number (n : N) : Z := to_double (Z.of_N n).

(** [a - b] on doubles: the exact difference, rounded. *)
Definition sub (a b : Z) : Z := to_double (a - b).

(** [`${x}`] for an integer-valued double below 10^21 in magnitude: plain
    decimal digits, with a leading minus sign when negative. *)
Definition toString (x : Z) : string := NilZero.string_of_int (Z.to_int x).

End JS.

(* ===================================================================== *)
(** ** web3.js and the Solana RPC                                          *)
(* ===================================================================== *)

Module Web3.
Import JS.

(** A public key, held by its base58 form. *)
Definition PublicKey := string.
Definition equals (a b : PublicKey) : bool := String.eqb a b.
Definition toBase58 (k : PublicKey) : string := k.

Definition TransactionSignature := string.

(** [uiTokenAmount]; only [amount], the decimal string of the raw u64
    quantity, is read.  It is held by the number the string denotes. *)
Record TokenAmount : Type := { amount : N }.

Record TokenBalance : Type := {
  accountIndex : nat;
  mint : PublicKey;
  uiTokenAmount : TokenAmount
}.

Record ConfirmedTransactionMeta : Type := {
  preTokenBalances : option (list TokenBalance);
  postTokenBalances : option (list TokenBalance)
}.

(** What [getTransaction] resolves to when the node knows the signature;
    [staticAccountKeys] stands for [transaction.message.staticAccountKeys]. *)
Record VersionedTransactionResponse : Type := {
  meta : option ConfirmedTransactionMeta;
  staticAccountKeys : list PublicKey
}.

(** [confirmTransaction] resolves to [{ context, value: { err } }]. *)
Record SignatureResult : Type := { err : Value }.

(** Instructions as [client.js] builds them with
    [createTransferInstruction(source, destination, owner, amount)] and
    [createAssociatedTokenAccountInstruction(payer, ata, owner, mint)]. *)
Inductive Instruction : Type :=
| TransferInstruction (source destination owner : PublicKey) (amount : N)
| AssociatedTokenAccountInstruction (payer associatedToken owner mint : PublicKey)
| OtherInstruction (programId : PublicKey) (data : Buffer).

Record Transaction : Type := {
  feePayer : PublicKey;
  recentBlockhash : string;
  instructions : list Instruction;
  signatures : list TransactionSignature
}.

Record VersionedTransaction : Type := {
  version : Z;
  message : Transaction
}.

(** The library functions the handler calls, none of which is code of the
    repository.  [base64_decode] is [Buffer.from(s, "base64")] on a string:
    Node skips what is not base64 and never throws. *)
Record Library : Type := {
  base64_decode : string -> Buffer;
  Buffer_from_object : Value -> result Buffer;
  ERR_INVALID_ARG_TYPE : Value -> string;
  utf8_decode : Buffer -> string;
  JSON_parse : string -> result Value;
  Transaction_from : Buffer -> result Transaction;
  VersionedTransaction_deserialize : Buffer -> result VersionedTransaction
}.

(** [Buffer.from(v, "base64")]: a string is decoded, an array or object is
    handled by Node's array-like path, anything else is a TypeError. *)
Definition Buffer_from (L : Library) (v : Value) : result Buffer :=
  match v with
  | Str s => Ok (base64_decode L s)
  | Arr _ | Obj _ => Buffer_from_object L v
  | _ => Throw (Error (ERR_INVALID_ARG_TYPE L v))
  end.

(** *** Awaited RPC calls

    A computation that talks to the node is a tree: it is finished, or it
    issues one call of [Connection] and goes on with what the awaited
    promise settles to ([Throw] when it rejects).  The constant option
    objects of the calls are not represented. *)
Inductive Rpc (A : Type) : Type :=
| Done (a : A)
| SendRawTransaction (rawTransaction : Buffer)
    (k : result TransactionSignature -> Rpc A)
| ConfirmTransaction (signature : TransactionSignature)
    (k : result SignatureResult -> Rpc A)
| GetTransaction (signature : TransactionSignature)
    (k : result (option VersionedTransactionResponse) -> Rpc A).
Arguments Done {A} a.
Arguments SendRawTransaction {A} rawTransaction k.
Arguments ConfirmTransaction {A} signature k.
Arguments GetTransaction {A} signature k.

Fixpoint andThen {A B : Type} (m : Rpc A) (f : A -> Rpc B) : Rpc B :=
  match m with
  | Done a => f a
  | SendRawTransaction raw k => SendRawTransaction raw (fun r => andThen (k r) f)
  | ConfirmTransaction sig k => ConfirmTransaction sig (fun r => andThen (k r) f)
  | GetTransaction sig k => GetTransaction sig (fun r => andThen (k r) f)
  end.

End Web3.

(* ===================================================================== *)
(** ** Express                                                             *)
(* ===================================================================== *)

Module Express.
Import JS Web3.

(** [req.headers]: Node lower-cases the names and keeps one entry each. *)
Record Request : Type := { headers : list (string * string) }.

Definition header (req : Request) (name : string) : option string :=
  option_map snd (find (fun kv => String.eqb (fst kv) name) (headers req)).

(** What [res.status(n).json(body)] sends; [res.json(body)] sends 200. *)
Record Response : Type := { status : Z; body : Value }.

(** How a piece of a function body completes: normally with a value, by a
    [return] statement, or by a [throw]. *)
Inductive completion (A : Type) : Type :=
| Normal (a : A)
| Return (r : Response)
| Abrupt (e : Thrown).
Arguments Normal {A} a.
Arguments Return {A} r.
Arguments Abrupt {A} e.

(** Statements of an [async] handler. *)
Definition Js (A : Type) : Type := Rpc (completion A).

Definition js_bind {A B : Type} (m : Js A) (f : A -> Js B) : Js B :=
  andThen m (fun c =>
    match c with
    | Normal a => f a
    | Return r => Done (Return r)
    | Abrupt e => Done (Abrupt e)
    end).

(** [try { body } catch (e) { handler }]: a [return] inside [body] leaves
    the function, only a [throw] reaches the handler. *)
Definition try_catch {A : Type} (body : Js A) (handler : Thrown -> Js A) : Js A :=
  andThen body (fun c =>
    match c with
    | Abrupt e => handler e
    | _ => Done c
    end).

#[export] Instance Monad_Js : Monad Js :=
  {| ret := fun A a => Done (Normal a); bind := @js_bind |}.

#[export] Instance Exc_Js : MonadExc Thrown Js :=
  {| raise := fun A e => Done (Abrupt e); catch := @try_catch |}.

(** [return res.status(n).json(body)]. *)
Definition return_ {A : Type} (r : Response) : Js A := Done (Return r).

(** A synchronous library call. *)
Definition call {A : Type} (r : result A) : Js A :=
  match r with
  | Ok a => Done (Normal a)
  | Throw e => Done (Abrupt e)
  end.

(** [await connection.f(...)]. *)
Definition awaited {A : Type} (r : result A) : Rpc (completion A) := call r.
Definition sendRawTransaction (raw : Buffer) : Js TransactionSignature :=
  SendRawTransaction raw awaited.
Definition confirmTransaction (sig : TransactionSignature) : Js SignatureResult :=
  ConfirmTransaction sig awaited.
Definition getTransaction (sig : TransactionSignature)
  : Js (option VersionedTransactionResponse) :=
  GetTransaction sig awaited.

End Express.

(* ===================================================================== *)
(** ** server.js                                                           *)
(* ===================================================================== *)

Module Server.
Import JS Web3 Express.

(** The module-level constants, fixed once at start-up.  [PRICE_USDC] is
    the integer [parseInt] read from the environment (default 1000000);
    [RECIPIENT_WALLET] is the public key of the loaded keypair. *)
Record Config : Type := {
  USDC_MINT : PublicKey;
  PRICE_USDC : Z;
  RECIPIENT_WALLET : PublicKey;
  RECIPIENT_TOKEN_ACCOUNT : PublicKey
}.

Definition premium_content : string :=
  "üéâ Premium content unlocked! This is exclusive data accessible only after USDC payment on Solana.".

Section Handler.

Context (L : Library) (C : Config).

(** Lines 268-285: the loop over [postTokenBalances].  The first entry
    whose account key is the recipient's token account sets
    [amountReceived] and breaks; entries whose index has no static key, or
    another key, are passed over. *)
Fixpoint scanPostBalances (keys : list PublicKey)
    (preTokenBalances postTokenBalances : list TokenBalance)
    (amountReceived : Z) : Z :=
  match postTokenBalances with
  | [] => amountReceived
  | postBal :: rest =>
      let preBal :=
        find (fun pre => Nat.eqb (accountIndex pre) (accountIndex postBal))
             preTokenBalances in
      let accountKey := nth_error keys (accountIndex postBal) in
      match accountKey with
      | Some key =>
          if equals key (RECIPIENT_TOKEN_ACCOUNT C) then
            let postAmount := amount (uiTokenAmount postBal) in
            let preAmount :=
              match preBal with
              | Some pre => amount (uiTokenAmount pre)
              | None => 0%N
              end in
            sub (Number postAmount) (Number preAmount)
          else scanPostBalances keys preTokenBalances rest amountReceived
      | None => scanPostBalances keys preTokenBalances rest amountReceived
      end
  end.

(** Lines 262-285. *)
Definition computeAmountReceived (confirmedTx : VersionedTransactionResponse) : Z :=
  let preTokenBalances :=
    match meta confirmedTx with
    | Some m => match preTokenBalances m with Some l => l | None => [] end
    | None => []
    end in
  let postTokenBalances :=
    match meta confirmedTx with
    | Some m => match postTokenBalances m with Some l => l | None => [] end
    | None => []
    end in
  scanPostBalances (staticAccountKeys confirmedTx)
    preTokenBalances postTokenBalances 0.

(** The bodies sent by the handler. *)
Definition invalidTransactionFormat : Response :=
  {| status := 402; body := Obj [("error", Str "Invalid transaction format")] |}.

Definition transactionFailed (e : Value) : Response :=
  {| status := 402;
     body := Obj [("error", Str "Transaction failed"); ("details", e)] |}.

Definition couldNotFetch : Response :=
  {| status := 402;
     body := Obj [("error", Str "Could not fetch transaction details")] |}.

Definition insufficientPayment (amountReceived : Z) : Response :=
  {| status := 402;
     body := Obj [("error",
       Str ("Insufficient payment: received " ++ toString amountReceived
            ++ ", expected " ++ toString (PRICE_USDC C)))] |}.

Definition explorerUrl (signature : TransactionSignature) : string :=
  "https://explorer.solana.com/tx/" ++ signature ++ "?cluster=devnet".

Definition premiumContent (signature : TransactionSignature)
    (amountReceived : Z) : Response :=
  {| status := 200;
     body := Obj [
       ("data", Str premium_content);
       ("paymentDetails", Obj [
          ("signature", Str signature);
          ("amount", int amountReceived);
          ("amountUSDC", Num (Qmake amountReceived 1000000));
          ("recipient", Str (toBase58 (RECIPIENT_TOKEN_ACCOUNT C)));
          ("explorerUrl", Str (explorerUrl signature))])] |}.

Definition verificationFailed (e : Thrown) : Response :=
  {| status := 402;
     body := Obj [
       ("error", Str "Payment verification failed");
       ("details", Str (match e with
                        | Error message => message
                        | NotAnError _ => "Unknown error"
                        end))] |}.

Definition paymentRequired : Response :=
  {| status := 402;
     body := Obj [
       ("x402Version", int 1);
       ("accepts", Arr [
          Obj [
            ("scheme", Str "exact");
            ("network", Str "solana-devnet");
            ("recipientWallet", Str (toBase58 (RECIPIENT_WALLET C)));
            ("tokenAccount", Str (toBase58 (RECIPIENT_TOKEN_ACCOUNT C)));
            ("mint", Str (toBase58 (USDC_MINT C)));
            ("amount", int (PRICE_USDC C));
            ("amountUSDC", Num (Qmake (PRICE_USDC C) 1000000));
            ("resource", Str "/premium");
            ("description", Str "Premium content access");
            ("mimeType", Str "application/json")]])] |}.

(** Lines 198-211: decode the header and take the transaction bytes out. *)
Definition decodeHeader (xPaymentHeader : string) : Js (Value * Buffer) :=
  paymentProof <-
    call (JSON_parse L (utf8_decode L (base64_decode L xPaymentHeader))) ;;
  _ <- call (get paymentProof "x402Version") ;;
  _ <- call (get paymentProof "scheme") ;;
  _ <- call (get paymentProof "network") ;;
  payload <- call (get paymentProof "payload") ;;
  serializedTx <- call (get payload "serializedTransaction") ;;
  txBuffer <- call (Buffer_from L serializedTx) ;;
  ret (paymentProof, txBuffer).

(** Lines 213-225: legacy format first, versioned format second. *)
Definition deserialize (txBuffer : Buffer)
  : Js (Transaction + VersionedTransaction) :=
  catch
    (t <- call (Transaction_from L txBuffer) ;; ret (inl t))
    (fun e =>
       catch
         (t <- call (VersionedTransaction_deserialize L txBuffer) ;; ret (inr t))
         (fun e2 => return_ invalidTransactionFormat)).

(** Lines 227-310: submit, await confirmation, fetch, measure, answer. *)
Definition submitAndVerify (txBuffer : Buffer) : Js unit :=
  signature <- sendRawTransaction txBuffer ;;
  confirmation <- confirmTransaction signature ;;
  (if truthy (err confirmation)
   then return_ (transactionFailed (err confirmation))
   else ret tt) ;;
  confirmedTx <- getTransaction signature ;;
  confirmedTx <-
    match confirmedTx with
    | None => return_ couldNotFetch
    | Some tx => ret tx
    end ;;
  let amountReceived := computeAmountReceived confirmedTx in
  (if amountReceived <? PRICE_USDC C
   then return_ (insufficientPayment amountReceived)
   else ret tt) ;;
  return_ (premiumContent signature amountReceived).

(** Lines 195-317: the [try] block and its [catch]. *)
Definition verifyPayment (xPaymentHeader : string) : Js unit :=
  catch
    (decoded <- decodeHeader xPaymentHeader ;;
     transaction <- deserialize (snd decoded) ;;
     submitAndVerify (snd decoded))
    (fun e => return_ (verificationFailed e)).

(** [app.get("/premium", async (req, res) => { ... })].  An absent header
    is [undefined] and an empty one is the empty string: both are falsy. *)
Definition premium (req : Request) : Js unit :=
  let xPaymentHeader := header req "x-payment" in
  match xPaymentHeader with
  | Some h => if String.eqb h EmptyString then ret tt else verifyPayment h
  | None => ret tt
  end ;;
  return_ paymentRequired.

(** What is left of the handler once [txBuffer] is in hand and has
    deserialized: lines 227-310 inside the [try], the [catch] of lines
    311-317 around them, and the statement after the [if]. *)
Definition charge (txBuffer : Buffer) : Js unit :=
  catch (submitAndVerify txBuffer) (fun e => return_ (verificationFailed e)) ;;
  return_ paymentRequired.

End Handler.

(** The request carries a payment header the handler acts on. *)
Definition presented (req : Request) (h : string) : Prop :=
  header req "x-payment" = Some h /\ String.eqb h EmptyString = false.

(** [paymentProof.payload] of a parsed object. *)
Definition payloadOf (fields : list (string * Value)) : Value :=
  match lookup "payload" fields with
  | Some w => w
  | None => Undefined
  end.

End Server.

(* ===================================================================== *)
(** ** Running handlers against a node                                     *)
(* ===================================================================== *)

Module Node.
Import JS Web3 Express Server.

(** An RPC node with internal state [S]: what each call of [Connection]
    settles to, and the state it leaves. *)
Record Connection (S : Type) : Type := {
  onSend : Buffer -> S -> result TransactionSignature * S;
  onConfirm : TransactionSignature -> S -> result SignatureResult * S;
  onGet : TransactionSignature -> S ->
          result (option VersionedTransactionResponse) * S
}.
Arguments onSend {S} c.
Arguments onConfirm {S} c.
Arguments onGet {S} c.

(** One call that reached the node, with what it settled to. *)
Inductive Exchange : Type :=
| Sent (raw : Buffer) (answer : result TransactionSignature)
| Confirmed (signature : TransactionSignature) (answer : result SignatureResult)
| Fetched (signature : TransactionSignature)
    (answer : result (option VersionedTransactionResponse)).

Fixpoint run {S A : Type} (node : Connection S) (p : Rpc A) (s : S)
  : A * S * list Exchange :=
  match p with
  | Done a => (a, s, [])
  | SendRawTransaction raw k =>
      let '(answer, s1) := onSend node raw s in
      let '(a, s2, log) := run node (k answer) s1 in
      (a, s2, Sent raw answer :: log)
  | ConfirmTransaction sig k =>
      let '(answer, s1) := onConfirm node sig s in
      let '(a, s2, log) := run node (k answer) s1 in
      (a, s2, Confirmed sig answer :: log)
  | GetTransaction sig k =>
      let '(answer, s1) := onGet node sig s in
      let '(a, s2, log) := run node (k answer) s1 in
      (a, s2, Fetched sig answer :: log)
  end.

(** The response a request gets, if the handler sends one. *)
Definition sent (c : completion unit) : option Response :=
  match c with
  | Return r => Some r
  | _ => None
  end.

(** The raw transactions handed to [sendRawTransaction]. *)
Fixpoint submissions (log : list Exchange) : list Buffer :=
  match log with
  | [] => []
  | Sent raw _ :: rest => raw :: submissions rest
  | _ :: rest => submissions rest
  end.

Section Serving.

Context {S : Type} (node : Connection S) (L : Library) (C : Config).

Definition handle (req : Request) (s : S)
  : option Response * S * list Exchange :=
  let '(c, s', log) := run node (premium L C req) s in
  (sent c, s', log).

(** Requests served one after the other. *)
Fixpoint serve (reqs : list Request) (s : S)
  : list (option Response) * S * list Exchange :=
  match reqs with
  | [] => ([], s, [])
  | req :: rest =>
      let '(r, s1, log1) := handle req s in
      let '(rs, s2, log2) := serve rest s1 in
      (r :: rs, s2, (log1 ++ log2)%list)
  end.

End Serving.

(** The answers the handler can give, each with the exchanges that lead to
    it: one constructor per [return] statement of the source, the [catch]
    of lines 311-317 being reached from decoding or from any of the three
    awaited calls. *)
Inductive Served (C : Config) : Response -> list Exchange -> Prop :=
| quoted :
    Served C (paymentRequired C) []
| decodingThrew (e : Thrown) :
    Served C (verificationFailed e) []
| formatRefused :
    Served C invalidTransactionFormat []
| sendThrew (raw : Buffer) (e : Thrown) :
    Served C (verificationFailed e) [Sent raw (Throw e)]
| confirmThrew (raw : Buffer) (sig : TransactionSignature) (e : Thrown) :
    Served C (verificationFailed e)
      [Sent raw (Ok sig); Confirmed sig (Throw e)]
| failedOnChain (raw : Buffer) (sig : TransactionSignature)
    (confirmation : SignatureResult) :
    truthy (err confirmation) = true ->
    Served C (transactionFailed (err confirmation))
      [Sent raw (Ok sig); Confirmed sig (Ok confirmation)]
| fetchThrew (raw : Buffer) (sig : TransactionSignature)
    (confirmation : SignatureResult) (e : Thrown) :
    truthy (err confirmation) = false ->
    Served C (verificationFailed e)
      [Sent raw (Ok sig); Confirmed sig (Ok confirmation);
       Fetched sig (Throw e)]
| notFound (raw : Buffer) (sig : TransactionSignature)
    (confirmation : SignatureResult) :
    truthy (err confirmation) = false ->
    Served C couldNotFetch
      [Sent raw (Ok sig); Confirmed sig (Ok confirmation);
       Fetched sig (Ok None)]
| underpaid (raw : Buffer) (sig : TransactionSignature)
    (confirmation : SignatureResult) (tx : VersionedTransactionResponse) :
    truthy (err confirmation) = false ->
    computeAmountReceived C tx < PRICE_USDC C ->
    Served C (insufficientPayment C (computeAmountReceived C tx))
      [Sent raw (Ok sig); Confirmed sig (Ok confirmation);
       Fetched sig (Ok (Some tx))]
| paid (raw : Buffer) (sig : TransactionSignature)
    (confirmation : SignatureResult) (tx : VersionedTransactionResponse) :
    truthy (err confirmation) = false ->
    PRICE_USDC C <= computeAmountReceived C tx ->
    Served C (premiumContent C sig (computeAmountReceived C tx))
      [Sent raw (Ok sig); Confirmed sig (Ok confirmation);
       Fetched sig (Ok (Some tx))].

(** What an exchange threw, if the awaited promise rejected. *)
Definition rejection (x : Exchange) : option Thrown :=
  match x with
  | Sent _ (Throw e) | Confirmed _ (Throw e) | Fetched _ (Throw e) => Some e
  | _ => None
  end.

Definition responses {S : Type}
    (out : list (option Response) * S * list Exchange) : list (option Response) :=
  fst (fst out).
Definition exchanges {S : Type}
    (out : list (option Response) * S * list Exchange) : list Exchange :=
  snd out.

End Node.

(* ===================================================================== *)
(** ** A concrete library and node                                         *)
(* ===================================================================== *)

Module Devnet.
Import JS Web3 Express Server Node.

(** Standard base64, decoded as a stream of sextets; decoding stops at the
    first character outside the alphabet (the padding sign included). *)
Definition sextet (c : ascii) : option N :=
  let n := N_of_ascii c in
  if ((65 <=? n) && (n <=? 90))%N then Some (n - 65)%N
  else if ((97 <=? n) && (n <=? 122))%N then Some (n - 71)%N
  else if ((48 <=? n) && (n <=? 57))%N then Some (n + 4)%N
  else if (n =? 43)%N then Some 62%N
  else if (n =? 47)%N then Some 63%N
  else None.

Definition octet (n : N) : Byte.byte :=
  match Byte.of_N n with
  | Some b => b
  | None => Byte.x00
  end.

Fixpoint decode64 (s : string) (acc : N) (nbits : N) : Buffer :=
  match s with
  | EmptyString => []
  | String c rest =>
      match sextet c with
      | None => []
      | Some v =>
          let acc' := (acc * 64 + v)%N in
          let n' := (nbits + 6)%N in
          if (8 <=? n')%N
          then octet (N.shiftr acc' (n' - 8))
               :: decode64 rest (N.land acc' (N.ones (n' - 8))) (n' - 8)%N
          else decode64 rest acc' n'
      end
  end.

Definition base64 (s : string) : Buffer := decode64 s 0 0.

Definition text (header : string) : string :=
  string_of_list_byte (base64 header).

(** The accounts of the example. *)
Definition client : PublicKey := "ClientWallet".
Definition clientUsdc : PublicKey := "ClientUsdcAccount".
Definition server : PublicKey := "ServerWallet".
Definition serverUsdc : PublicKey := "ServerUsdcAccount".
Definition strangerUsdc : PublicKey := "StrangerUsdcAccount".
Definition tokenProgram : PublicKey := "TokenkegQfeZyiNwAJbNbGKPFXCWuBvf9Ss623VQ5DA".
Definition usdc : PublicKey := "Gh9ZwEmdLJ8DscKNTkTqPbNwLNNBjuSzaG9Vp2KGtKJr".

(** The default configuration, and one with [PRICE_USDC=3]. *)
Definition shop : Config :=
  {| USDC_MINT := usdc; PRICE_USDC := 1000000;
     RECIPIENT_WALLET := server; RECIPIENT_TOKEN_ACCOUNT := serverUsdc |}.
Definition kiosk : Config :=
  {| USDC_MINT := usdc; PRICE_USDC := 3;
     RECIPIENT_WALLET := server; RECIPIENT_TOKEN_ACCOUNT := serverUsdc |}.

(** Payment proofs.  Each header below is the base64 of the JSON text
    [{x402Version, scheme, network, payload: {serializedTransaction}}]
    with the fields of the proof next to it; short byte strings stand in
    for serialized transactions. *)
Definition proof (version : Z) (scheme network serializedTransaction : string)
  : Value :=
  Obj [("x402Version", int version); ("scheme", Str scheme);
       ("network", Str network);
       ("payload", Obj [("serializedTransaction", Str serializedTransaction)])].

Definition paidHeader : string :=
  "eyJ4NDAyVmVyc2lvbiI6MSwic2NoZW1lIjoiZXhhY3QiLCJuZXR3b3JrIjoic29sYW5hLWRldm5ldCIsInBheWxvYWQiOnsic2VyaWFsaXplZFRyYW5zYWN0aW9uIjoiQVFJRCJ9fQ==".
Definition paidProof : Value := proof 1 "exact" "solana-devnet" "AQID".

Definition otherSchemeHeader : string :=
  "eyJ4NDAyVmVyc2lvbiI6OTksInNjaGVtZSI6InVwdG8iLCJuZXR3b3JrIjoiYmFzZS1zZXBvbGlhIiwicGF5bG9hZCI6eyJzZXJpYWxpemVkVHJhbnNhY3Rpb24iOiJBUUlEIn19".
Definition otherSchemeProof : Value := proof 99 "upto" "base-sepolia" "AQID".

Definition strayHeader : string :=
  "eyJ4NDAyVmVyc2lvbiI6MSwic2NoZW1lIjoiZXhhY3QiLCJuZXR3b3JrIjoic29sYW5hLWRldm5ldCIsInBheWxvYWQiOnsic2VyaWFsaXplZFRyYW5zYWN0aW9uIjoiQkFVRyJ9fQ==".
Definition strayProof : Value := proof 1 "exact" "solana-devnet" "BAUG".

Definition dustHeader : string :=
  "eyJ4NDAyVmVyc2lvbiI6MSwic2NoZW1lIjoiZXhhY3QiLCJuZXR3b3JrIjoic29sYW5hLWRldm5ldCIsInBheWxvYWQiOnsic2VyaWFsaXplZFRyYW5zYWN0aW9uIjoiQndnSiJ9fQ==".
Definition dustProof : Value := proof 1 "exact" "solana-devnet" "BwgJ".

Definition halfHeader : string :=
  "eyJ4NDAyVmVyc2lvbiI6MSwic2NoZW1lIjoiZXhhY3QiLCJuZXR3b3JrIjoic29sYW5hLWRldm5ldCIsInBheWxvYWQiOnsic2VyaWFsaXplZFRyYW5zYWN0aW9uIjoiQ2dzTSJ9fQ==".
Definition halfProof : Value := proof 1 "exact" "solana-devnet" "CgsM".

Definition nearHeader : string :=
  "eyJ4NDAyVmVyc2lvbiI6MSwic2NoZW1lIjoiZXhhY3QiLCJuZXR3b3JrIjoic29sYW5hLWRldm5ldCIsInBheWxvYWQiOnsic2VyaWFsaXplZFRyYW5zYWN0aW9uIjoiRFE0UCJ9fQ==".
Definition nearProof : Value := proof 1 "exact" "solana-devnet" "DQ4P".

Definition versionedHeader : string :=
  "eyJ4NDAyVmVyc2lvbiI6MSwic2NoZW1lIjoiZXhhY3QiLCJuZXR3b3JrIjoic29sYW5hLWRldm5ldCIsInBheWxvYWQiOnsic2VyaWFsaXplZFRyYW5zYWN0aW9uIjoiZ0FFQyJ9fQ==".
Definition versionedProof : Value := proof 1 "exact" "solana-devnet" "gAEC".

Definition junkHeader : string :=
  "eyJ4NDAyVmVyc2lvbiI6MSwic2NoZW1lIjoiZXhhY3QiLCJuZXR3b3JrIjoic29sYW5hLWRldm5ldCIsInBheWxvYWQiOnsic2VyaWFsaXplZFRyYW5zYWN0aW9uIjoiLy8vLyJ9fQ==".
Definition junkProof : Value := proof 1 "exact" "solana-devnet" "////".

(** A proof without [payload]. *)
Definition bareHeader : string :=
  "eyJ4NDAyVmVyc2lvbiI6MSwic2NoZW1lIjoiZXhhY3QiLCJuZXR3b3JrIjoic29sYW5hLWRldm5ldCJ9".
Definition bareProof : Value :=
  Obj [("x402Version", int 1); ("scheme", Str "exact");
       ("network", Str "solana-devnet")].

(** The base64 of a single space: a text that is not JSON. *)
Definition blankHeader : string := "IA==".

Definition parseTable : list (string * Value) :=
  [(paidHeader, paidProof); (otherSchemeHeader, otherSchemeProof);
   (strayHeader, strayProof); (dustHeader, dustProof);
   (halfHeader, halfProof); (nearHeader, nearProof); (versionedHeader, versionedProof);
   (junkHeader, junkProof); (bareHeader, bareProof)].

Definition parse (t : string) : result Value :=
  match find (fun entry => String.eqb (text (fst entry)) t) parseTable with
  | Some entry => Ok (snd entry)
  | None => Throw (Error "Unexpected end of JSON input")
  end.

(** The transactions behind the byte strings. *)
Definition transfer (destination : PublicKey) (units : N) : Transaction :=
  {| feePayer := client; recentBlockhash := "blockhash";
     instructions := [TransferInstruction clientUsdc destination client units];
     signatures := ["signature-of-client"] |}.

Definition payTx : Buffer := base64 "AQID".
Definition strayTx : Buffer := base64 "BAUG".
Definition dustTx : Buffer := base64 "BwgJ".
Definition halfTx : Buffer := base64 "CgsM".
Definition nearTx : Buffer := base64 "DQ4P".
Definition versionedTx : Buffer := base64 "gAEC".
Definition junkTx : Buffer := base64 "////".

Definition buffer_eqb (a b : Buffer) : bool :=
  if list_eq_dec Byte.byte_eq_dec a b then true else false.

Definition legacyTable : list (Buffer * Transaction) :=
  [(payTx, transfer serverUsdc 1000000); (strayTx, transfer strangerUsdc 1000000);
   (dustTx, transfer serverUsdc 2); (halfTx, transfer serverUsdc 500000);
   (nearTx, transfer serverUsdc 999999)].

Definition legacy (raw : Buffer) : result Transaction :=
  match find (fun entry => buffer_eqb (fst entry) raw) legacyTable with
  | Some entry => Ok (snd entry)
  | None =>
      if buffer_eqb raw versionedTx
      then Throw (Error
        "Versioned messages must be deserialized with VersionedMessage.deserialize()")
      else Throw (Error "Reached end of buffer unexpectedly")
  end.

Definition versioned (raw : Buffer) : result VersionedTransaction :=
  if buffer_eqb raw versionedTx
  then Ok {| version := 0; message := transfer serverUsdc 1000000 |}
  else Throw (Error "Reached end of buffer unexpectedly").

Definition invalidArgType (v : Value) : string :=
  "The first argument must be of type string or an instance of Buffer, ArrayBuffer, or Array or an Array-like Object. Received "
  ++ match v with
     | Undefined => "undefined"
     | Null => "null"
     | Bool _ => "type boolean"
     | Num _ => "type number"
     | _ => "an instance of Object"
     end.

(** [Buffer_from_object] is not exercised by the requests below. *)
Definition library : Library :=
  {| base64_decode := base64;
     Buffer_from_object := fun v => Throw (Error (invalidArgType v));
     ERR_INVALID_ARG_TYPE := invalidArgType;
     utf8_decode := string_of_list_byte;
     JSON_parse := parse;
     Transaction_from := legacy;
     VersionedTransaction_deserialize := versioned |}.

(** What the chain records for a transaction once it has landed: its
    signature, the static account keys, and the token balances before and
    after. *)
Definition balance (index : nat) (units : N) : TokenBalance :=
  {| accountIndex := index; mint := usdc; uiTokenAmount := {| amount := units |} |}.

Definition landed (payee : PublicKey) (payerBefore payerAfter : N)
    (payeeBefore payeeAfter : N) : VersionedTransactionResponse :=
  {| meta := Some {|
       preTokenBalances := Some [balance 1 payerBefore; balance 2 payeeBefore];
       postTokenBalances := Some [balance 1 payerAfter; balance 2 payeeAfter] |};
     staticAccountKeys := [client; clientUsdc; payee; tokenProgram] |}.

Definition chain
  : list (Buffer * (TransactionSignature * VersionedTransactionResponse)) :=
  [(payTx, ("sig-pay", landed serverUsdc 5000000 4000000 0 1000000));
   (versionedTx, ("sig-v0", landed serverUsdc 5000000 4000000 0 1000000));
   (strayTx, ("sig-stray", landed strangerUsdc 5000000 4000000 0 1000000));
   (halfTx, ("sig-half", landed serverUsdc 5000000 4500000 0 500000));
   (dustTx, ("sig-dust",
             landed serverUsdc 5000000 4999998
               9007199254740993 9007199254740995));
   (nearTx, ("sig-near",
             landed serverUsdc 5000000 4000001
               9007199254740993 9007199255740992))].

(** A node that lands each known transaction once.  Its state is the list
    of signatures already processed; a second submission of a processed
    transaction is refused by the preflight check. *)
Definition devnet : Connection (list TransactionSignature) :=
  {| onSend := fun raw processed =>
       match find (fun entry => buffer_eqb (fst entry) raw) chain with
       | Some (_, (sig, _)) =>
           if existsb (String.eqb sig) processed
           then (Throw (Error
                   "failed to send transaction: Transaction simulation failed: This transaction has already been processed"),
                 processed)
           else (Ok sig, sig :: processed)
       | None =>
           (Throw (Error
              "failed to send transaction: failed to deserialize transaction"),
            processed)
       end;
     onConfirm := fun sig processed => (Ok {| err := Null |}, processed);
     onGet := fun sig processed =>
       if existsb (String.eqb sig) processed
       then (Ok (option_map (fun entry => snd (snd entry))
                   (find (fun entry => String.eqb (fst (snd entry)) sig) chain)),
             processed)
       else (Ok None, processed) |}.

(** A node that cannot be reached: every call rejects. *)
Definition unreachable : Connection unit :=
  {| onSend := fun _ s => (Throw (Error "fetch failed"), s);
     onConfirm := fun _ s => (Throw (Error "fetch failed"), s);
     onGet := fun _ s => (Throw (Error "fetch failed"), s) |}.

Definition paying (h : string) : Request := {| headers := [("x-payment", h)] |}.
Definition asking : Request := {| headers := [] |}.

End Devnet.

(* ===================================================================== *)
(** ** Notions of the protocol description                                 *)
(* ===================================================================== *)

(** These definitions are not taken from the code: they say, in the terms
    of the data above, what the protocol description means by a balance
    delta, by a transfer that meets a requirement, by the normative 402
    body and by settle-once.  The code is compared with them below. *)
Module Spec.
Import JS Web3 Express Server Node.

Definition balancesOf (l : option (list TokenBalance)) : list TokenBalance :=
  match l with Some l => l | None => [] end.

Definition preOf (tx : VersionedTransactionResponse) : list TokenBalance :=
  match meta tx with Some m => balancesOf (preTokenBalances m) | None => [] end.

Definition postOf (tx : VersionedTransactionResponse) : list TokenBalance :=
  match meta tx with Some m => balancesOf (postTokenBalances m) | None => [] end.

(** Is [b] a balance of the account [who] in [tx]? *)
Definition isBalanceOf (who : PublicKey) (tx : VersionedTransactionResponse)
    (b : TokenBalance) : bool :=
  match nth_error (staticAccountKeys tx) (accountIndex b) with
  | Some key => equals key who
  | None => false
  end.

(** The balance delta of [who] in the confirmed transaction [tx], in exact
    integer arithmetic: balance after minus balance before, an account
    without an entry before counting as empty, and an account without an
    entry after as untouched. *)
Definition balanceDelta (who : PublicKey) (tx : VersionedTransactionResponse) : Z :=
  match find (isBalanceOf who tx) (postOf tx) with
  | Some post =>
      let before :=
        match find (fun pre => Nat.eqb (accountIndex pre) (accountIndex post))
                   (preOf tx) with
        | Some pre => amount (uiTokenAmount pre)
        | None => 0%N
        end in
      Z.of_N (amount (uiTokenAmount post)) - Z.of_N before
  | None => 0
  end.

(** Every token balance of [tx] is below 2^53. *)
Definition smallBalances (tx : VersionedTransactionResponse) : bool :=
  forallb (fun b => Z.of_N (amount (uiTokenAmount b)) <? 2 ^ 53)
          (preOf tx ++ postOf tx)%list.

(** The transaction carries a transfer to the recipient's token account of
    at least the price. *)
Definition meetsRequirement (C : Config) (t : Transaction) : bool :=
  existsb (fun i =>
    match i with
    | TransferInstruction _ destination _ units =>
        equals destination (RECIPIENT_TOKEN_ACCOUNT C)
        && (PRICE_USDC C <=? Z.of_N units)
    | _ => false
    end) (instructions t).

Definition carried (t : Transaction + VersionedTransaction) : Transaction :=
  match t with
  | inl legacy => legacy
  | inr v0 => message v0
  end.

(** Key names of the normative bodies. *)
Definition paymentRequiredKeys : list string :=
  ["x402Version"; "accepts"; "error"].
Definition paymentRequirementsKeys : list string :=
  ["scheme"; "network"; "maxAmountRequired"; "payTo"; "asset";
   "maxTimeoutSeconds"; "extra"].

Definition sameKeys (expected actual : list string) : bool :=
  forallb (fun k => existsb (String.eqb k) actual) expected
  && forallb (fun k => existsb (String.eqb k) expected) actual.

(** The body is [{x402Version, accepts: [PaymentRequirements, ...], error}]
    by key names (key order is not significant). *)
Definition normative402 (body : Value) : bool :=
  sameKeys paymentRequiredKeys (keys body)
  && match body with
     | Obj fields =>
         match lookup "accepts" fields with
         | Some (Arr items) =>
             forallb (fun item => sameKeys paymentRequirementsKeys (keys item)) items
         | _ => false
         end
     | _ => false
     end.

(** Settle-once: no raw transaction is handed to the chain twice. *)
Definition settledOnce (log : list Exchange) : Prop :=
  NoDup (submissions log).

(** The version, scheme and network the example announces. *)
Definition supported (proof : Value) : bool :=
  match proof with
  | Obj fields =>
      match lookup "x402Version" fields, lookup "scheme" fields,
            lookup "network" fields with
      | Some (Num v), Some (Str scheme), Some (Str network) =>
          Qeq_bool v (inject_Z 1) && String.eqb scheme "exact"
          && String.eqb network "solana-devnet"
      | _, _, _ => false
      end
  | _ => false
  end.

End Spec.

(* ===================================================================== *)
(** ** Facts about the handler                                             *)
(* ===================================================================== *)

Import JS Web3 Express Server Node.

(** *** Rounding *)

Lemma to_double_small (z : Z) : Z.abs z < 2 ^ 53 -> to_double z = z.
Proof.
  intros H. unfold to_double, round_magnitude.
  destruct (Z.ltb_spec (Z.abs z) (2 ^ 53)) as [_ | Hge]; [| lia].
  rewrite Z.mul_comm. apply Z.abs_sgn.
Qed.

Lemma Number_small (n : N) : Z.of_N n < 2 ^ 53 -> Number n = Z.of_N n.
Proof. intros H. unfold Number. apply to_double_small. lia. Qed.

Lemma sub_small (p q : N) :
  Z.of_N p < 2 ^ 53 -> Z.of_N q < 2 ^ 53 ->
  sub (Number p) (Number q) = Z.of_N p - Z.of_N q.
Proof.
  intros Hp Hq. rewrite !Number_small by assumption.
  unfold sub. apply to_double_small. lia.
Qed.

Section HandlerFacts.

Context (L : Library) (C : Config).

(** *** The stages before submission make no RPC call *)

Lemma call_done {A : Type} (r : result A) :
  exists c, call r = Done c /\ forall resp, c <> Return resp.
Proof. destruct r; cbn; eexists; split; try reflexivity; congruence. Qed.

Lemma decodeHeader_pure (h : string) :
  exists c, decodeHeader L h = Done c /\ forall resp, c <> Return resp.
Proof.
  unfold decodeHeader.
  destruct (JSON_parse L (utf8_decode L (base64_decode L h))) as [proof | e];
    cbn; [| eexists; split; [reflexivity | congruence]].
  destruct (get proof "x402Version"); cbn;
    [| eexists; split; [reflexivity | congruence]].
  destruct (get proof "scheme"); cbn;
    [| eexists; split; [reflexivity | congruence]].
  destruct (get proof "network"); cbn;
    [| eexists; split; [reflexivity | congruence]].
  destruct (get proof "payload") as [payload | e]; cbn;
    [| eexists; split; [reflexivity | congruence]].
  destruct (get payload "serializedTransaction") as [serializedTx | e]; cbn;
    [| eexists; split; [reflexivity | congruence]].
  destruct (Buffer_from L serializedTx); cbn;
    eexists; (split; [reflexivity | congruence]).
Qed.

(** The three ways [deserialize] can end. *)
Lemma deserialize_legacy (txBuffer : Buffer) (t : Transaction) :
  Transaction_from L txBuffer = Ok t ->
  deserialize L txBuffer = Done (Normal (inl t)).
Proof. intros H. unfold deserialize. cbn. rewrite H. reflexivity. Qed.

Lemma deserialize_versioned (txBuffer : Buffer) (e : Thrown)
    (t : VersionedTransaction) :
  Transaction_from L txBuffer = Throw e ->
  VersionedTransaction_deserialize L txBuffer = Ok t ->
  deserialize L txBuffer = Done (Normal (inr t)).
Proof. intros H1 H2. unfold deserialize. cbn. rewrite H1. cbn. rewrite H2. reflexivity. Qed.

Lemma deserialize_neither (txBuffer : Buffer) (e e2 : Thrown) :
  Transaction_from L txBuffer = Throw e ->
  VersionedTransaction_deserialize L txBuffer = Throw e2 ->
  deserialize L txBuffer = Done (Return invalidTransactionFormat).
Proof. intros H1 H2. unfold deserialize. cbn. rewrite H1. cbn. rewrite H2. reflexivity. Qed.

(** *** The shape of the handler, case by case *)

Lemma premium_quote (req : Request) :
  (forall h, ~ presented req h) ->
  premium L C req = Done (Return (paymentRequired C)).
Proof.
  intros Hno. unfold premium.
  destruct (header req "x-payment") as [h |] eqn:Hh; [| reflexivity].
  destruct (String.eqb h EmptyString) eqn:He; [reflexivity |].
  exfalso. apply (Hno h). split; assumption.
Qed.

Lemma premium_decode_throws (req : Request) (h : string) (e : Thrown) :
  presented req h ->
  decodeHeader L h = Done (Abrupt e) ->
  premium L C req = Done (Return (verificationFailed e)).
Proof.
  intros [Hh He] Hd. unfold premium, verifyPayment. rewrite Hh, He, Hd.
  reflexivity.
Qed.

Lemma premium_invalid_format (req : Request) (h : string) (proof : Value)
    (txBuffer : Buffer) :
  presented req h ->
  decodeHeader L h = Done (Normal (proof, txBuffer)) ->
  deserialize L txBuffer = Done (Return invalidTransactionFormat) ->
  premium L C req = Done (Return invalidTransactionFormat).
Proof.
  intros [Hh He] Hd Ht. unfold premium, verifyPayment. rewrite Hh, He, Hd.
  cbn -[deserialize submitAndVerify]. rewrite Ht. reflexivity.
Qed.

Lemma premium_charge (req : Request) (h : string) (proof : Value)
    (txBuffer : Buffer) (t : Transaction + VersionedTransaction) :
  presented req h ->
  decodeHeader L h = Done (Normal (proof, txBuffer)) ->
  deserialize L txBuffer = Done (Normal t) ->
  premium L C req = charge C txBuffer.
Proof.
  intros [Hh He] Hd Ht. unfold premium, verifyPayment, charge. rewrite Hh, He, Hd.
  cbn -[deserialize submitAndVerify]. rewrite Ht. reflexivity.
Qed.

End HandlerFacts.

Section Runs.

Context (L : Library) (C : Config) {S : Type} (node : Connection S).

(** *** What a run of [charge] does, answer by answer *)

Lemma run_charge (txBuffer : Buffer) (s : S) :
  run node (charge C txBuffer) s =
  let '(sent, s1) := onSend node txBuffer s in
  match sent with
  | Throw e => (Return (verificationFailed e), s1, [Sent txBuffer sent])
  | Ok signature =>
      let '(confirmed, s2) := onConfirm node signature s1 in
      match confirmed with
      | Throw e =>
          (Return (verificationFailed e), s2,
           [Sent txBuffer sent; Confirmed signature confirmed])
      | Ok confirmation =>
          if truthy (err confirmation)
          then (Return (transactionFailed (err confirmation)), s2,
                [Sent txBuffer sent; Confirmed signature confirmed])
          else
            let '(fetched, s3) := onGet node signature s2 in
            let log := [Sent txBuffer sent; Confirmed signature confirmed;
                        Fetched signature fetched] in
            match fetched with
            | Throw e => (Return (verificationFailed e), s3, log)
            | Ok None => (Return couldNotFetch, s3, log)
            | Ok (Some confirmedTx) =>
                let amountReceived := computeAmountReceived C confirmedTx in
                if amountReceived <? PRICE_USDC C
                then (Return (insufficientPayment C amountReceived), s3, log)
                else (Return (premiumContent C signature amountReceived), s3, log)
            end
      end
  end.
Proof.
  unfold charge, submitAndVerify. cbn.
  destruct (onSend node txBuffer s) as [[signature | e] s1]; cbn; [| reflexivity].
  destruct (onConfirm node signature s1) as [[confirmation | e] s2]; cbn;
    [| reflexivity].
  destruct (truthy (err confirmation)); cbn; [reflexivity |].
  destruct (onGet node signature s2) as [[[confirmedTx |] | e] s3]; cbn;
    try reflexivity.
  destruct (computeAmountReceived C confirmedTx <? PRICE_USDC C); reflexivity.
Qed.

Lemma submissions_charge (txBuffer : Buffer) (s : S) :
  submissions (snd (run node (charge C txBuffer) s)) = [txBuffer].
Proof.
  rewrite run_charge.
  destruct (onSend node txBuffer s) as [[signature | e] s1]; [| reflexivity].
  destruct (onConfirm node signature s1) as [[confirmation | e] s2];
    [| reflexivity].
  destruct (truthy (err confirmation)); [reflexivity |].
  destruct (onGet node signature s2) as [[[confirmedTx |] | e] s3];
    try reflexivity.
  cbv zeta.
  destruct (computeAmountReceived C confirmedTx <? PRICE_USDC C); reflexivity.
Qed.

End Runs.

Section Outcomes.

Context (L : Library) (C : Config) {S : Type} (node : Connection S).

Lemma deserialize_cases (txBuffer : Buffer) :
  (exists t, deserialize L txBuffer = Done (Normal t))
  \/ deserialize L txBuffer = Done (Return invalidTransactionFormat).
Proof.
  destruct (Transaction_from L txBuffer) as [t | e] eqn:H1.
  - left. eexists. apply deserialize_legacy. eassumption.
  - destruct (VersionedTransaction_deserialize L txBuffer) as [t | e2] eqn:H2.
    + left. eexists. eapply deserialize_versioned; eassumption.
    + right. eapply deserialize_neither; eassumption.
Qed.

Lemma served_charge (txBuffer : Buffer) (s : S) :
  exists r,
    sent (fst (fst (run node (charge C txBuffer) s))) = Some r
    /\ Served C r (snd (run node (charge C txBuffer) s)).
Proof.
  rewrite run_charge.
  destruct (onSend node txBuffer s) as [[signature | e] s1];
    [| eexists; split; [reflexivity | constructor]].
  destruct (onConfirm node signature s1) as [[confirmation | e] s2];
    [| eexists; split; [reflexivity | constructor]].
  destruct (truthy (err confirmation)) eqn:Herr;
    [eexists; split; [reflexivity | constructor; assumption] |].
  destruct (onGet node signature s2) as [[[confirmedTx |] | e] s3];
    try (eexists; split; [reflexivity | constructor; assumption]).
  cbv zeta.
  destruct (Z.ltb_spec (computeAmountReceived C confirmedTx) (PRICE_USDC C));
    eexists; (split; [reflexivity | constructor; assumption]).
Qed.

Lemma handle_run (req : Request) (s : S) :
  handle node L C req s =
  (sent (fst (fst (run node (premium L C req) s))),
   snd (fst (run node (premium L C req) s)),
   snd (run node (premium L C req) s)).
Proof.
  unfold handle. destruct (run node (premium L C req) s) as [[c s'] log].
  reflexivity.
Qed.

(** Every request is answered, in one of the ways listed by [Served]. *)
Lemma handle_served (req : Request) (s : S) :
  exists r,
    fst (fst (handle node L C req s)) = Some r
    /\ Served C r (snd (handle node L C req s)).
Proof.
  rewrite handle_run. cbn [fst snd].
  destruct (header req "x-payment") as [h |] eqn:Hh.
  2: { rewrite premium_quote.
       - eexists; split; [reflexivity | constructor].
       - intros h [Hp _]. congruence. }
  destruct (String.eqb h EmptyString) eqn:He.
  { rewrite premium_quote.
    - eexists; split; [reflexivity | constructor].
    - intros h' [Hp He']. congruence. }
  assert (Hp : presented req h) by (split; assumption).
  destruct (decodeHeader_pure L h) as [c [Hd Hc]].
  destruct c as [[proof txBuffer] | r | e].
  - destruct (deserialize_cases txBuffer) as [[t Ht] | Ht].
    + rewrite (premium_charge L C req h proof txBuffer t Hp Hd Ht).
      apply served_charge.
    + rewrite (premium_invalid_format L C req h proof txBuffer Hp Hd Ht).
      eexists; split; [reflexivity | constructor].
  - exfalso. apply (Hc r). reflexivity.
  - rewrite (premium_decode_throws L C req h e Hp Hd).
    eexists; split; [reflexivity | constructor].
Qed.

End Outcomes.

(** *** The measured amount *)

Section Measuring.

Context (C : Config).

Lemma scanPostBalances_find (tx : VersionedTransactionResponse)
    (pre post : list TokenBalance) (start : Z) :
  scanPostBalances C (staticAccountKeys tx) pre post start =
  match find (Spec.isBalanceOf (RECIPIENT_TOKEN_ACCOUNT C) tx) post with
  | Some postBal =>
      sub (Number (amount (uiTokenAmount postBal)))
          (Number
             match find (fun b => Nat.eqb (accountIndex b) (accountIndex postBal))
                        pre with
             | Some preBal => amount (uiTokenAmount preBal)
             | None => 0%N
             end)
  | None => start
  end.
Proof.
  induction post as [| postBal rest IH]; [reflexivity |].
  cbn [scanPostBalances find]. unfold Spec.isBalanceOf at 1.
  destruct (nth_error (staticAccountKeys tx) (accountIndex postBal)) as [key |].
  - destruct (equals key (RECIPIENT_TOKEN_ACCOUNT C)); [reflexivity | apply IH].
  - apply IH.
Qed.

Lemma computeAmountReceived_find (tx : VersionedTransactionResponse) :
  computeAmountReceived C tx =
  match find (Spec.isBalanceOf (RECIPIENT_TOKEN_ACCOUNT C) tx) (Spec.postOf tx) with
  | Some postBal =>
      sub (Number (amount (uiTokenAmount postBal)))
          (Number
             match find (fun b => Nat.eqb (accountIndex b) (accountIndex postBal))
                        (Spec.preOf tx) with
             | Some preBal => amount (uiTokenAmount preBal)
             | None => 0%N
             end)
  | None => 0
  end.
Proof.
  unfold computeAmountReceived. rewrite scanPostBalances_find.
  unfold Spec.postOf, Spec.preOf, Spec.balancesOf.
  destruct (meta tx) as [m |]; reflexivity.
Qed.

(** Without an entry for the recipient the loop leaves the initial 0. *)
Lemma computeAmountReceived_uncredited (tx : VersionedTransactionResponse) :
  forallb (fun b => negb (Spec.isBalanceOf (RECIPIENT_TOKEN_ACCOUNT C) tx b))
          (Spec.postOf tx) = true ->
  computeAmountReceived C tx = 0.
Proof.
  intros Hnone. rewrite computeAmountReceived_find.
  destruct (find _ (Spec.postOf tx)) as [postBal |] eqn:Hfind; [| reflexivity].
  apply find_some in Hfind. destruct Hfind as [Hin Hkey].
  rewrite forallb_forall in Hnone. specialize (Hnone postBal Hin).
  rewrite Hkey in Hnone. discriminate.
Qed.

(** Below 2^53 the doubles are exact, and the measured amount is the
    balance delta. *)
Lemma computeAmountReceived_exact (tx : VersionedTransactionResponse) :
  Spec.smallBalances tx = true ->
  computeAmountReceived C tx = Spec.balanceDelta (RECIPIENT_TOKEN_ACCOUNT C) tx.
Proof.
  intros Hsmall. rewrite computeAmountReceived_find. unfold Spec.balanceDelta.
  unfold Spec.smallBalances in Hsmall. rewrite forallb_forall in Hsmall.
  destruct (find _ (Spec.postOf tx)) as [postBal |] eqn:Hpost; [| reflexivity].
  apply find_some in Hpost. destruct Hpost as [Hin _].
  assert (Hp : Z.of_N (amount (uiTokenAmount postBal)) < 2 ^ 53).
  { apply Z.ltb_lt. apply Hsmall. apply in_or_app. right. exact Hin. }
  destruct (find _ (Spec.preOf tx)) as [preBal |] eqn:Hpre.
  - apply find_some in Hpre. destruct Hpre as [Hin' _].
    apply sub_small; [exact Hp |].
    apply Z.ltb_lt. apply Hsmall. apply in_or_app. left. exact Hin'.
  - apply sub_small; [exact Hp | reflexivity].
Qed.

End Measuring.

(** *** Content is released only on the measured amount *)

Lemma served_content (C : Config) (r : Response) (log : list Exchange) :
  Served C r log ->
  status r = 200 ->
  exists raw sig confirmation tx,
    log = [Sent raw (Ok sig); Confirmed sig (Ok confirmation);
           Fetched sig (Ok (Some tx))]
    /\ truthy (err confirmation) = false
    /\ PRICE_USDC C <= computeAmountReceived C tx
    /\ r = premiumContent C sig (computeAmountReceived C tx).
Proof.
  intros Hs H200. destruct Hs; cbn in H200; try discriminate.
  exists raw, sig, confirmation, tx. auto.
Qed.

(** With balances below 2^53, content is released only if the recipient's
    balance delta reaches the price, and a smaller delta is answered by the
    insufficient-payment 402. *)
Lemma content_requires_delta (L : Library) (C : Config) {S : Type}
    (node : Connection S) (req : Request) (s : S)
    (sig : TransactionSignature) (tx : VersionedTransactionResponse) :
  In (Fetched sig (Ok (Some tx))) (snd (handle node L C req s)) ->
  Spec.smallBalances tx = true ->
  let delta := Spec.balanceDelta (RECIPIENT_TOKEN_ACCOUNT C) tx in
  (delta < PRICE_USDC C ->
   fst (fst (handle node L C req s)) = Some (insufficientPayment C delta))
  /\ (PRICE_USDC C <= delta ->
      fst (fst (handle node L C req s)) = Some (premiumContent C sig delta)).
Proof.
  intros Hin Hsmall delta.
  destruct (handle_served L C node req s) as [r [Hr Hs]].
  rewrite Hr. subst delta.
  rewrite <- (computeAmountReceived_exact C tx Hsmall).
  destruct Hs; cbn in Hin;
    repeat match goal with
           | H : _ \/ _ |- _ => destruct H
           | H : False |- _ => destruct H
           end; try discriminate;
    match goal with H : Fetched _ _ = Fetched _ _ |- _ => inversion H; subst end;
    split; intros; (reflexivity || lia).
Qed.

(* ===================================================================== *)
(** ** The claims                                                          *)
(* ===================================================================== *)

Import Devnet.

(** C1.  Success is to be declared only after checking that the balance
    delta credited to the recipient's token account reaches the required
    amount.  The handler measures the delta with [Number], and above 2^53
    the measure is not the delta: with a price of 3 units and a recipient
    account going from 9007199254740993 to 9007199254740995 units (a delta
    of 2), the two balances round to ...992 and ...996, the handler measures
    4 and releases the content. *)
Theorem C1_rounded_delta_releases_content :
  let tx := landed serverUsdc 5000000 4999998 9007199254740993 9007199254740995 in
  handle devnet library kiosk (paying dustHeader) [] =
    (Some (premiumContent kiosk "sig-dust" 4), ["sig-dust"],
     [Sent dustTx (Ok "sig-dust");
      Confirmed "sig-dust" (Ok {| err := Null |});
      Fetched "sig-dust" (Ok (Some tx))])
  /\ computeAmountReceived kiosk tx = 4
  /\ Spec.balanceDelta (RECIPIENT_TOKEN_ACCOUNT kiosk) tx = 2
  /\ PRICE_USDC kiosk = 3.
Proof. vm_compute. repeat split. Qed.

(** C5.  A payment strictly below the required amount is to be refused
    with a reason naming the insufficiency.  A transfer of 999999 units
    against a price of 1000000, into a recipient account holding
    9007199254740993 units, is measured as 1000000 by the handler (the
    balance before rounds down by one) and is answered with the content,
    not with the insufficient-payment 402. *)
Theorem C5_underpayment_accepted_after_rounding :
  let tx := landed serverUsdc 5000000 4000001 9007199254740993 9007199255740992 in
  Transaction_from library nearTx = Ok (transfer serverUsdc 999999)
  /\ snd (handle devnet library shop (paying nearHeader) []) =
       [Sent nearTx (Ok "sig-near");
        Confirmed "sig-near" (Ok {| err := Null |});
        Fetched "sig-near" (Ok (Some tx))]
  /\ Spec.balanceDelta (RECIPIENT_TOKEN_ACCOUNT shop) tx = 999999
  /\ 999999 < PRICE_USDC shop
  /\ fst (fst (handle devnet library shop (paying nearHeader) [])) =
       Some (premiumContent shop "sig-near" 1000000)
  /\ fst (fst (handle devnet library shop (paying nearHeader) [])) <>
       Some (insufficientPayment shop 999999).
Proof. vm_compute. repeat split. discriminate. Qed.

(** C10.  For a price above zero, when the transaction the node reports has
    no post-balance entry whose account key is the recipient's token
    account, the measured amount is the initial 0 and the request is
    answered with the insufficient-payment 402; the content is not
    released. *)
Theorem C10_uncredited_recipient_is_refused (L : Library) (C : Config)
    {S : Type} (node : Connection S) (req : Request) (s : S)
    (sig : TransactionSignature) (tx : VersionedTransactionResponse) :
  0 < PRICE_USDC C ->
  In (Fetched sig (Ok (Some tx))) (snd (handle node L C req s)) ->
  forallb (fun b => negb (Spec.isBalanceOf (RECIPIENT_TOKEN_ACCOUNT C) tx b))
          (Spec.postOf tx) = true ->
  computeAmountReceived C tx = 0
  /\ fst (fst (handle node L C req s)) = Some (insufficientPayment C 0)
  /\ status (insufficientPayment C 0) = 402
  /\ body (insufficientPayment C 0) =
       Obj [("error", Str ("Insufficient payment: received 0, expected "
                           ++ toString (PRICE_USDC C)))].
Proof.
  intros Hprice Hin Hnone.
  pose proof (computeAmountReceived_uncredited C tx Hnone) as Hzero.
  split; [exact Hzero |]. split; [| split; reflexivity].
  destruct (handle_served L C node req s) as [r [Hr Hs]]. rewrite Hr.
  destruct Hs; cbn in Hin;
    repeat match goal with
           | H : _ \/ _ |- _ => destruct H
           | H : False |- _ => destruct H
           end; try discriminate;
    match goal with H : Fetched _ _ = Fetched _ _ |- _ => inversion H; subst end.
  - rewrite Hzero. reflexivity.
  - lia.
Qed.

Lemma C10_witness :
  0 < PRICE_USDC shop
  /\ fst (fst (handle devnet library shop (paying strayHeader) [])) =
       Some (insufficientPayment shop 0).
Proof.
  split; [reflexivity |].
  apply (C10_uncredited_recipient_is_refused library shop devnet
           (paying strayHeader) [] "sig-stray"
           (landed strangerUsdc 5000000 4000000 0 1000000)).
  - reflexivity.
  - vm_compute. right. right. left. reflexivity.
  - reflexivity.
Defined.

(** The answers given after submission are all different from the
    invalid-format answer. *)
Lemma charge_not_format (C : Config) {S : Type} (node : Connection S)
    (txBuffer : Buffer) (s : S) :
  sent (fst (fst (run node (charge C txBuffer) s))) <>
  Some invalidTransactionFormat.
Proof.
  rewrite run_charge.
  destruct (onSend node txBuffer s) as [[signature | e] s1];
    [| cbn; discriminate].
  destruct (onConfirm node signature s1) as [[confirmation | e] s2];
    [| cbn; discriminate].
  destruct (truthy (err confirmation)); [cbn; discriminate |].
  destruct (onGet node signature s2) as [[[confirmedTx |] | e] s3];
    try (cbn; discriminate).
  cbv zeta.
  destruct (computeAmountReceived C confirmedTx <? PRICE_USDC C);
    cbn; discriminate.
Qed.

(** C9.  Once the transaction bytes are in hand, the legacy deserializer is
    tried first and the versioned one only if the legacy one throws; the
    request is answered 402 "Invalid transaction format" if and only if
    both throw, and otherwise the handler goes on to submit the bytes,
    with whichever deserialization succeeded. *)
Theorem C9_legacy_then_versioned (L : Library) (C : Config) (req : Request)
    (h : string) (proof : Value) (txBuffer : Buffer) :
  presented req h ->
  decodeHeader L h = Done (Normal (proof, txBuffer)) ->
  (forall t, Transaction_from L txBuffer = Ok t ->
     deserialize L txBuffer = Done (Normal (inl t)))
  /\ (forall e t, Transaction_from L txBuffer = Throw e ->
        VersionedTransaction_deserialize L txBuffer = Ok t ->
        deserialize L txBuffer = Done (Normal (inr t)))
  /\ (forall (S : Type) (node : Connection S) (s : S),
        fst (fst (handle node L C req s)) = Some invalidTransactionFormat
        <-> (exists e, Transaction_from L txBuffer = Throw e)
            /\ (exists e2, VersionedTransaction_deserialize L txBuffer = Throw e2))
  /\ (forall t, deserialize L txBuffer = Done (Normal t) ->
        premium L C req = charge C txBuffer).
Proof.
  intros Hp Hd. split; [| split; [| split]].
  - intros t. apply deserialize_legacy.
  - intros e t. apply deserialize_versioned.
  - intros S node s. rewrite handle_run. cbn [fst snd]. split.
    + intros Hresp.
      destruct (Transaction_from L txBuffer) as [t | e] eqn:H1.
      * exfalso.
        rewrite (premium_charge L C req h proof txBuffer (inl t) Hp Hd
                   (deserialize_legacy L txBuffer t H1)) in Hresp.
        exact (charge_not_format C node txBuffer s Hresp).
      * destruct (VersionedTransaction_deserialize L txBuffer) as [t | e2] eqn:H2.
        -- exfalso.
           rewrite (premium_charge L C req h proof txBuffer (inr t) Hp Hd
                      (deserialize_versioned L txBuffer e t H1 H2)) in Hresp.
           exact (charge_not_format C node txBuffer s Hresp).
        -- split; eexists; reflexivity.
    + intros [[e H1] [e2 H2]].
      rewrite (premium_invalid_format L C req h proof txBuffer Hp Hd
                 (deserialize_neither L txBuffer e e2 H1 H2)).
      reflexivity.
  - intros t. apply premium_charge with (h := h) (proof := proof); assumption.
Qed.

Lemma C9_witness :
  presented (paying versionedHeader) versionedHeader
  /\ decodeHeader library versionedHeader =
       Done (Normal (versionedProof, versionedTx))
  /\ premium library shop (paying versionedHeader) = charge shop versionedTx
  /\ fst (fst (handle devnet library shop (paying junkHeader) [])) =
       Some invalidTransactionFormat.
Proof.
  assert (Hp : presented (paying versionedHeader) versionedHeader)
    by (split; reflexivity).
  assert (Hd : decodeHeader library versionedHeader =
               Done (Normal (versionedProof, versionedTx))) by reflexivity.
  split; [exact Hp |]. split; [exact Hd |]. split.
  - apply (proj2 (proj2 (proj2
             (C9_legacy_then_versioned library shop (paying versionedHeader)
                versionedHeader versionedProof versionedTx Hp Hd)))
             (inr {| version := 0; message := transfer serverUsdc 1000000 |})).
    reflexivity.
  - apply (proj1 (proj2 (proj2
             (C9_legacy_then_versioned library shop (paying junkHeader)
                junkHeader junkProof junkTx
                (conj eq_refl eq_refl) eq_refl))) (list TransactionSignature)
             devnet []).
    split; eexists; reflexivity.
Defined.

(** *** Serving several requests *)

Lemma submissions_app (l1 l2 : list Exchange) :
  submissions (l1 ++ l2) = (submissions l1 ++ submissions l2)%list.
Proof.
  induction l1 as [| x l1 IH]; [reflexivity |].
  destruct x; cbn; rewrite IH; reflexivity.
Qed.

Lemma serve_cons (L : Library) (C : Config) {S : Type} (node : Connection S)
    (req : Request) (rest : list Request) (s : S) :
  snd (serve node L C (req :: rest) s) =
  (snd (handle node L C req s)
   ++ snd (serve node L C rest (snd (fst (handle node L C req s)))))%list.
Proof.
  cbn [serve]. destruct (handle node L C req s) as [[r s1] log1].
  cbn [fst snd]. destruct (serve node L C rest s1) as [[rs s2] log2].
  reflexivity.
Qed.

(** C2 as stated fails: the same payment header served twice reaches
    [sendRawTransaction] twice, and the two callers get different answers
    (the content, then a 402 carrying the node's refusal). *)
Lemma C2_counterexample :
  let out := serve devnet library shop [paying paidHeader; paying paidHeader] [] in
  submissions (exchanges out) = [payTx; payTx]
  /\ ~ Spec.settledOnce (exchanges out)
  /\ map (option_map status) (responses out) = [Some 200; Some 402].
Proof.
  cbv zeta. split; [reflexivity |]. split; [| reflexivity].
  unfold Spec.settledOnce.
  replace (submissions _) with [payTx; payTx] by reflexivity.
  intros Hnd. inversion Hnd as [| x l Hnot _]; subst.
  apply Hnot. left. reflexivity.
Qed.

(** C2, amended.  The handler keeps no record of the payments it has seen
    and caches no outcome: every request whose header decodes to bytes that
    deserialize hands those bytes to [sendRawTransaction] exactly once,
    whatever was served before and whatever the node answers, so [n]
    requests carrying the same payload make [n] submissions. *)
Theorem C2_every_request_submits (L : Library) (C : Config) {S : Type}
    (node : Connection S) (req : Request) (h : string) (proof : Value)
    (txBuffer : Buffer) (t : Transaction + VersionedTransaction) :
  presented req h ->
  decodeHeader L h = Done (Normal (proof, txBuffer)) ->
  deserialize L txBuffer = Done (Normal t) ->
  forall (n : nat) (s : S),
    submissions (exchanges (serve node L C (repeat req n) s)) = repeat txBuffer n.
Proof.
  intros Hp Hd Ht n. unfold exchanges.
  induction n as [| n IH]; intros s; [reflexivity |].
  cbn [repeat]. rewrite serve_cons, submissions_app, IH.
  rewrite handle_run. cbn [fst snd].
  rewrite (premium_charge L C req h proof txBuffer t Hp Hd Ht).
  rewrite submissions_charge. reflexivity.
Qed.

Lemma C2_witness :
  presented (paying paidHeader) paidHeader
  /\ decodeHeader library paidHeader = Done (Normal (paidProof, payTx))
  /\ deserialize library payTx = Done (Normal (inl (transfer serverUsdc 1000000)))
  /\ submissions
       (exchanges (serve devnet library shop (repeat (paying paidHeader) 3) []))
     = [payTx; payTx; payTx].
Proof.
  assert (Hp : presented (paying paidHeader) paidHeader) by (split; reflexivity).
  assert (Hd : decodeHeader library paidHeader = Done (Normal (paidProof, payTx)))
    by reflexivity.
  assert (Ht : deserialize library payTx =
               Done (Normal (inl (transfer serverUsdc 1000000)))) by reflexivity.
  split; [exact Hp |]. split; [exact Hd |]. split; [exact Ht |].
  exact (C2_every_request_submits library shop devnet (paying paidHeader)
           paidHeader paidProof payTx _ Hp Hd Ht 3%nat []).
Defined.

(** *** Which fields of the proof matter *)

Lemma decodeHeader_object (L : Library) (h : string)
    (fields : list (string * Value)) :
  JSON_parse L (utf8_decode L (base64_decode L h)) = Ok (Obj fields) ->
  decodeHeader L h =
  call (match get (payloadOf fields) "serializedTransaction" with
        | Ok serializedTx =>
            match Buffer_from L serializedTx with
            | Ok txBuffer => Ok (Obj fields, txBuffer)
            | Throw e => Throw e
            end
        | Throw e => Throw e
        end).
Proof.
  intros Hparse. unfold decodeHeader. rewrite Hparse. cbn.
  fold (payloadOf fields).
  destruct (get (payloadOf fields) "serializedTransaction") as [v | e]; cbn;
    [| reflexivity].
  destruct (Buffer_from L v); reflexivity.
Qed.

Lemma served_status (C : Config) (r : Response) (log : list Exchange) :
  Served C r log -> status r = 200 \/ status r = 402.
Proof. intros Hs. destruct Hs; cbn; auto. Qed.

(** C3 as stated fails: a proof announcing version 99, scheme "upto" and
    network "base-sepolia", none of which the server accepts, is not turned
    away with the 402 quote: its transaction is submitted and the content
    is released. *)
Lemma C3_counterexample :
  Spec.supported otherSchemeProof = false
  /\ decodeHeader library otherSchemeHeader =
       Done (Normal (otherSchemeProof, payTx))
  /\ fst (fst (handle devnet library shop (paying otherSchemeHeader) [])) =
       Some (premiumContent shop "sig-pay" 1000000)
  /\ fst (fst (handle devnet library shop (paying otherSchemeHeader) [])) <>
       Some (paymentRequired shop)
  /\ submissions (snd (handle devnet library shop (paying otherSchemeHeader) [])) =
       [payTx].
Proof. vm_compute. repeat split. discriminate. Qed.

(** C3, amended.  The handler never compares the scheme or the network of a
    payload (nor its version) with what it accepts: two payment headers
    whose decoded objects carry the same [payload] are handled by the same
    program, hence with the same RPC calls and the same answer, so a
    payload with an unaccepted (scheme, network) is submitted like any
    other.  Every answer has status 200 or 402, never 500. *)
Theorem C3_scheme_and_network_ignored (L : Library) (C : Config)
    (req1 req2 : Request) (h1 h2 : string) (f1 f2 : list (string * Value)) :
  presented req1 h1 ->
  presented req2 h2 ->
  JSON_parse L (utf8_decode L (base64_decode L h1)) = Ok (Obj f1) ->
  JSON_parse L (utf8_decode L (base64_decode L h2)) = Ok (Obj f2) ->
  lookup "payload" f1 = lookup "payload" f2 ->
  premium L C req1 = premium L C req2
  /\ forall (S : Type) (node : Connection S) (s : S),
       handle node L C req1 s = handle node L C req2 s
       /\ exists r, fst (fst (handle node L C req1 s)) = Some r
                    /\ (status r = 200 \/ status r = 402).
Proof.
  intros [Hh1 He1] [Hh2 He2] Hp1 Hp2 Hpayload.
  assert (Hsame : premium L C req1 = premium L C req2).
  { unfold premium, verifyPayment. rewrite Hh1, He1, Hh2, He2.
    rewrite (decodeHeader_object L h1 f1 Hp1), (decodeHeader_object L h2 f2 Hp2).
    unfold payloadOf. rewrite Hpayload.
    destruct (get _ "serializedTransaction") as [v | e]; [| reflexivity].
    destruct (Buffer_from L v); reflexivity. }
  split; [exact Hsame |]. intros S node s. split.
  - unfold handle. rewrite Hsame. reflexivity.
  - destruct (handle_served L C node req1 s) as [r [Hr Hs]].
    exists r. split; [exact Hr |]. exact (served_status C r _ Hs).
Qed.

Lemma C3_witness :
  presented (paying paidHeader) paidHeader
  /\ presented (paying otherSchemeHeader) otherSchemeHeader
  /\ handle devnet library shop (paying paidHeader) [] =
     handle devnet library shop (paying otherSchemeHeader) [].
Proof.
  assert (H1 : presented (paying paidHeader) paidHeader) by (split; reflexivity).
  assert (H2 : presented (paying otherSchemeHeader) otherSchemeHeader)
    by (split; reflexivity).
  split; [exact H1 |]. split; [exact H2 |].
  apply (proj2 (C3_scheme_and_network_ignored library shop
                  (paying paidHeader) (paying otherSchemeHeader)
                  paidHeader otherSchemeHeader _ _ H1 H2
                  eq_refl eq_refl eq_refl)
               (list TransactionSignature) devnet []).
Defined.

(** C4 as stated fails: a transaction whose only transfer goes to another
    token account passes the stage before submission and is handed to the
    chain. *)
Lemma C4_counterexample :
  deserialize library strayTx =
    Done (Normal (inl (transfer strangerUsdc 1000000)))
  /\ Spec.meetsRequirement shop (transfer strangerUsdc 1000000) = false
  /\ decodeHeader library strayHeader = Done (Normal (strayProof, strayTx))
  /\ snd (handle devnet library shop (paying strayHeader) []) =
       [Sent strayTx (Ok "sig-stray");
        Confirmed "sig-stray" (Ok {| err := Null |});
        Fetched "sig-stray"
          (Ok (Some (landed strangerUsdc 5000000 4000000 0 1000000)))].
Proof. vm_compute. repeat split. Qed.

(** C4, amended.  Before submission the handler only checks that the bytes
    deserialize, as a legacy or else as a versioned transaction.  That
    stage makes no RPC call; when neither format fits, the 402 is sent
    without any exchange with the node.  The instructions of the
    transaction are not looked at: as soon as the bytes deserialize, to
    whatever transaction, the first exchange with the node is the
    submission of those very bytes, and it is the only submission. *)
Theorem C4_only_the_format_is_checked (L : Library) (C : Config)
    (req : Request) (h : string) (proof : Value) (txBuffer : Buffer) :
  presented req h ->
  decodeHeader L h = Done (Normal (proof, txBuffer)) ->
  (exists c, deserialize L txBuffer = Done c)
  /\ (forall t, deserialize L txBuffer = Done (Normal t) ->
      forall (S : Type) (node : Connection S) (s : S),
        exists rest,
          snd (handle node L C req s) =
            Sent txBuffer (fst (onSend node txBuffer s)) :: rest
          /\ submissions (snd (handle node L C req s)) = [txBuffer])
  /\ (deserialize L txBuffer = Done (Return invalidTransactionFormat) ->
      forall (S : Type) (node : Connection S) (s : S),
        handle node L C req s = (Some invalidTransactionFormat, s, [])).
Proof.
  intros Hp Hd. split; [| split].
  - destruct (deserialize_cases L txBuffer) as [[t Ht] | Ht];
      eexists; exact Ht.
  - intros t Ht S node s. rewrite handle_run. cbn [fst snd].
    rewrite (premium_charge L C req h proof txBuffer t Hp Hd Ht).
    split with (x := tl (snd (run node (charge C txBuffer) s))).
    split; [| apply submissions_charge].
    rewrite run_charge.
    destruct (onSend node txBuffer s) as [[signature | e] s1]; [| reflexivity].
    destruct (onConfirm node signature s1) as [[confirmation | e] s2];
      [| reflexivity].
    destruct (truthy (err confirmation)); [reflexivity |].
    destruct (onGet node signature s2) as [[[confirmedTx |] | e] s3];
      try reflexivity.
    cbv zeta.
    destruct (computeAmountReceived C confirmedTx <? PRICE_USDC C); reflexivity.
  - intros Ht S node s. rewrite handle_run.
    rewrite (premium_invalid_format L C req h proof txBuffer Hp Hd Ht).
    reflexivity.
Qed.

Lemma C4_witness :
  presented (paying strayHeader) strayHeader
  /\ decodeHeader library strayHeader = Done (Normal (strayProof, strayTx))
  /\ submissions (snd (handle devnet library shop (paying strayHeader) [])) =
       [strayTx].
Proof.
  assert (Hp : presented (paying strayHeader) strayHeader) by (split; reflexivity).
  assert (Hd : decodeHeader library strayHeader =
               Done (Normal (strayProof, strayTx))) by reflexivity.
  split; [exact Hp |]. split; [exact Hd |].
  destruct (proj1 (proj2 (C4_only_the_format_is_checked library shop
                            (paying strayHeader) strayHeader strayProof strayTx
                            Hp Hd))
                  (inl (transfer strangerUsdc 1000000)) eq_refl
                  (list TransactionSignature) devnet []) as [rest [_ Hsub]].
  exact Hsub.
Defined.

(** C6 as stated fails: decoding accepts a proof whose version (99), scheme
    ("upto") and network ("base-sepolia") are not supported, and goes on
    with its transaction bytes. *)
Lemma C6_counterexample :
  Spec.supported otherSchemeProof = false
  /\ decodeHeader library otherSchemeHeader =
       Done (Normal (otherSchemeProof, payTx)).
Proof. vm_compute. split; reflexivity. Qed.

(** C6, amended.  Decoding the header (lines 198-211) makes no RPC call and
    sends nothing.  It fails when [JSON.parse] throws on the decoded text,
    and, for a text that parses to an object, exactly when reading
    [payload.serializedTransaction] throws (payload absent or null) or
    [Buffer.from] rejects what is read there; base64 is decoded without
    validation, and [x402Version], [scheme] and [network] are read but not
    checked.  Every failure is answered 402 with error "Payment
    verification failed" and the thrown message as details; there are no
    separate kinds of decode error. *)
Theorem C6_what_decoding_checks (L : Library) (h : string) :
  (exists c, decodeHeader L h = Done c /\ forall resp, c <> Return resp)
  /\ (forall e, JSON_parse L (utf8_decode L (base64_decode L h)) = Throw e ->
        decodeHeader L h = Done (Abrupt e))
  /\ (forall fields,
        JSON_parse L (utf8_decode L (base64_decode L h)) = Ok (Obj fields) ->
        decodeHeader L h =
        call (match get (payloadOf fields) "serializedTransaction" with
              | Ok serializedTx =>
                  match Buffer_from L serializedTx with
                  | Ok txBuffer => Ok (Obj fields, txBuffer)
                  | Throw e => Throw e
                  end
              | Throw e => Throw e
              end))
  /\ (forall (C : Config) (req : Request) (e : Thrown),
        presented req h ->
        decodeHeader L h = Done (Abrupt e) ->
        forall (S : Type) (node : Connection S) (s : S),
          handle node L C req s = (Some (verificationFailed e), s, [])).
Proof.
  split; [apply decodeHeader_pure |]. split; [| split].
  - intros e Hparse. unfold decodeHeader. rewrite Hparse. reflexivity.
  - apply decodeHeader_object.
  - intros C req e Hp Hd S node s. rewrite handle_run.
    rewrite (premium_decode_throws L C req h e Hp Hd). reflexivity.
Qed.

Lemma C6_witness :
  presented (paying bareHeader) bareHeader
  /\ decodeHeader library bareHeader =
       Done (Abrupt (Error
         "Cannot read properties of undefined (reading 'serializedTransaction')"))
  /\ handle devnet library shop (paying bareHeader) [] =
       (Some (verificationFailed (Error
          "Cannot read properties of undefined (reading 'serializedTransaction')")),
        [], []).
Proof.
  assert (Hp : presented (paying bareHeader) bareHeader) by (split; reflexivity).
  assert (Hd : decodeHeader library bareHeader =
               Done (Abrupt (Error
                 "Cannot read properties of undefined (reading 'serializedTransaction')")))
    by reflexivity.
  split; [exact Hp |]. split; [exact Hd |].
  exact (proj2 (proj2 (proj2 (C6_what_decoding_checks library bareHeader)))
           shop (paying bareHeader) _ Hp Hd (list TransactionSignature) devnet []).
Defined.

(** C7 as stated fails: a header that cannot be decoded (a validation
    failure) and a node that cannot be reached (a transport fault) are
    answered with the same status and the same error; only the free-text
    details, which repeat the thrown message, differ. *)
Lemma C7_counterexample :
  exists rejected unknown,
    fst (fst (handle devnet library shop (paying blankHeader) [])) = Some rejected
    /\ fst (fst (handle unreachable library shop (paying paidHeader) tt)) =
         Some unknown
    /\ status rejected = status unknown
    /\ get (body rejected) "error" = get (body unknown) "error"
    /\ keys (body rejected) = keys (body unknown).
Proof. do 2 eexists. vm_compute. repeat split. Qed.

(** C7, amended.  The handler never lets an exception escape: every
    request is answered, with status 200 or 402.  Whatever is thrown in the
    payment branch, by decoding the header or by an awaited RPC call, is
    answered by the one catch-all 402, with error "Payment verification
    failed" and the thrown message (or "Unknown error") as details; a
    rejected RPC call gets no status and no error of its own. *)
Theorem C7_one_answer_for_every_throw (L : Library) (C : Config) {S : Type}
    (node : Connection S) (req : Request) (s : S) :
  exists r,
    fst (fst (handle node L C req s)) = Some r
    /\ (status r = 200 \/ status r = 402)
    /\ (forall h e, presented req h -> decodeHeader L h = Done (Abrupt e) ->
          r = verificationFailed e)
    /\ (forall x e, In x (snd (handle node L C req s)) -> rejection x = Some e ->
          r = verificationFailed e)
    /\ (forall e, status (verificationFailed e) = 402
                  /\ get (body (verificationFailed e)) "error" =
                       Ok (Str "Payment verification failed")).
Proof.
  destruct (handle_served L C node req s) as [r [Hr Hs]].
  exists r. split; [exact Hr |]. split; [exact (served_status C r _ Hs) |].
  split; [| split].
  - intros h e Hp Hd. rewrite handle_run in Hr. cbn [fst snd] in Hr.
    rewrite (premium_decode_throws L C req h e Hp Hd) in Hr.
    cbn in Hr. congruence.
  - intros x e Hin Hx.
    destruct Hs; cbn in Hin;
      repeat match goal with
             | H : _ \/ _ |- _ => destruct H
             | H : False |- _ => destruct H
             end; subst; cbn in Hx; congruence.
  - intros e. split; reflexivity.
Qed.

Lemma charge_402_shape (C : Config) {S : Type} (node : Connection S)
    (txBuffer : Buffer) (s : S) (r : Response) :
  sent (fst (fst (run node (charge C txBuffer) s))) = Some r ->
  status r = 402 ->
  (keys (body r) = ["error"] \/ keys (body r) = ["error"; "details"])
  /\ exists reason, get (body r) "error" = Ok (Str reason).
Proof.
  rewrite run_charge.
  destruct (onSend node txBuffer s) as [[signature | e] s1].
  2: { cbn. intros [= <-] _. split; [right; reflexivity | eexists; reflexivity]. }
  destruct (onConfirm node signature s1) as [[confirmation | e] s2].
  2: { cbn. intros [= <-] _. split; [right; reflexivity | eexists; reflexivity]. }
  destruct (truthy (err confirmation)).
  { cbn. intros [= <-] _. split; [right; reflexivity | eexists; reflexivity]. }
  destruct (onGet node signature s2) as [[[confirmedTx |] | e] s3].
  - cbv zeta.
    destruct (computeAmountReceived C confirmedTx <? PRICE_USDC C).
    + cbn. intros [= <-] _. split; [left; reflexivity | eexists; reflexivity].
    + cbn. intros [= <-] H. discriminate H.
  - cbn. intros [= <-] _. split; [left; reflexivity | eexists; reflexivity].
  - cbn. intros [= <-] _. split; [right; reflexivity | eexists; reflexivity].
Qed.

Lemma C7_witness :
  exists r,
    fst (fst (handle unreachable library shop (paying paidHeader) tt)) = Some r
    /\ In (Sent payTx (Throw (Error "fetch failed")))
          (snd (handle unreachable library shop (paying paidHeader) tt))
    /\ r = verificationFailed (Error "fetch failed").
Proof.
  destruct (C7_one_answer_for_every_throw library shop unreachable
              (paying paidHeader) tt) as [r [Hr [_ [_ [Hthrown _]]]]].
  exists r. split; [exact Hr |].
  assert (Hin : In (Sent payTx (Throw (Error "fetch failed")))
                   (snd (handle unreachable library shop (paying paidHeader) tt)))
    by (left; reflexivity).
  split; [exact Hin |].
  exact (Hthrown _ _ Hin eq_refl).
Defined.

(** The key names of the quote and of its one [accepts] entry. *)
Lemma paymentRequired_keys (C : Config) :
  keys (body (paymentRequired C)) = ["x402Version"; "accepts"]
  /\ exists entry,
       get (body (paymentRequired C)) "accepts" = Ok (Arr [entry])
       /\ keys entry =
            ["scheme"; "network"; "recipientWallet"; "tokenAccount"; "mint";
             "amount"; "amountUSDC"; "resource"; "description"; "mimeType"].
Proof. split; [reflexivity |]. eexists. split; reflexivity. Qed.

(** C8 as stated fails: the 402 sent to a request without payment has no
    [error] key, and its [accepts] entry has none of [maxAmountRequired],
    [payTo], [asset], [maxTimeoutSeconds], [extra]; the 402 sent for a
    payment that cannot be verified has neither [x402Version] nor
    [accepts]. *)
Lemma C8_counterexample :
  handle devnet library shop asking [] = (Some (paymentRequired shop), [], [])
  /\ status (paymentRequired shop) = 402
  /\ Spec.normative402 (body (paymentRequired shop)) = false
  /\ fst (fst (handle devnet library shop (paying bareHeader) [])) =
       Some (verificationFailed
               (Error "Cannot read properties of undefined (reading 'serializedTransaction')"))
  /\ Spec.normative402
       (body (verificationFailed
                (Error "Cannot read properties of undefined (reading 'serializedTransaction')")))
     = false.
Proof. vm_compute. repeat split. Qed.

(** C8, amended.  A 402 body has one of three shapes.  The quote, sent
    exactly when the request carries no (or an empty) payment header, is
    [{x402Version: 1, accepts: [entry]}] with no [error] key, the one entry
    having the keys scheme, network, recipientWallet, tokenAccount, mint,
    amount, amountUSDC, resource, description, mimeType.  Every other 402
    is [{error}] or [{error, details}], [error] being a string. *)
Theorem C8_shapes_of_402 (L : Library) (C : Config) {S : Type}
    (node : Connection S) (req : Request) (s : S) (r : Response) :
  fst (fst (handle node L C req s)) = Some r ->
  status r = 402 ->
  ((forall h, ~ presented req h) -> r = paymentRequired C)
  /\ ((exists h, presented req h) ->
      (keys (body r) = ["error"] \/ keys (body r) = ["error"; "details"])
      /\ exists reason, get (body r) "error" = Ok (Str reason))
  /\ keys (body (paymentRequired C)) = ["x402Version"; "accepts"]
  /\ exists entry,
       get (body (paymentRequired C)) "accepts" = Ok (Arr [entry])
       /\ keys entry =
            ["scheme"; "network"; "recipientWallet"; "tokenAccount"; "mint";
             "amount"; "amountUSDC"; "resource"; "description"; "mimeType"].
Proof.
  intros Hr H402. split; [| split; [| apply paymentRequired_keys]].
  - intros Hno. rewrite handle_run in Hr. cbn [fst snd] in Hr.
    rewrite (premium_quote L C req Hno) in Hr. cbn in Hr. congruence.
  - intros [h Hp]. rewrite handle_run in Hr. cbn [fst snd] in Hr.
    destruct (decodeHeader_pure L h) as [c [Hd Hc]].
    destruct c as [[proof txBuffer] | r' | e].
    + destruct (deserialize_cases L txBuffer) as [[t Ht] | Ht].
      * rewrite (premium_charge L C req h proof txBuffer t Hp Hd Ht) in Hr.
        exact (charge_402_shape C node txBuffer s r Hr H402).
      * rewrite (premium_invalid_format L C req h proof txBuffer Hp Hd Ht) in Hr.
        cbn in Hr. injection Hr as <-.
        split; [left; reflexivity | eexists; reflexivity].
    + exfalso. apply (Hc r'). reflexivity.
    + rewrite (premium_decode_throws L C req h e Hp Hd) in Hr.
      cbn in Hr. injection Hr as <-.
      split; [right; reflexivity | eexists; reflexivity].
Qed.

Lemma C8_witness :
  fst (fst (handle devnet library shop (paying halfHeader) [])) =
    Some (insufficientPayment shop 500000)
  /\ status (insufficientPayment shop 500000) = 402
  /\ (keys (body (insufficientPayment shop 500000)) = ["error"]
      \/ keys (body (insufficientPayment shop 500000)) = ["error"; "details"]).
Proof.
  split; [reflexivity |]. split; [reflexivity |].
  apply (proj1 (proj2 (C8_shapes_of_402 library shop devnet (paying halfHeader) []
                         (insufficientPayment shop 500000) eq_refl eq_refl))).
  exists halfHeader. split; reflexivity.
Defined.
